(** * solutions/sentinel1_image.py

    A shallow embedding of the workshop script that loads a Sentinel-1
    sample patch, runs the speckle-variability task on it and plots the
    resulting layer.

    The script is four statements long.  Every statement calls into the
    earth-observation library, whose functions are reached through names
    the script expects to find in its global namespace.  The library is
    therefore a parameter of the development ([Globals]); the script is
    embedded twice, as an executable program in an exception-and-state
    monad ([sentinel1_image]) and as a small-step relation over program
    points ([step]), and the two are shown to agree. *)

From stdpp Require Import gmap strings list relations.

(** ** Data *)

(** [FeatureType] is the library's enumeration of layer categories.  Its
    declaration is not part of the script; the members listed are the ones
    the script names. *)
Inductive FeatureType := DATA | MASK | DATA_TIMELESS.

#[global] Instance FeatureType_eq_dec : EqDecision FeatureType.
Proof. solve_decision. Defined.

Definition FeatureType_code (ft : FeatureType) : nat :=
  match ft with DATA => 0 | MASK => 1 | DATA_TIMELESS => 2 end.

Definition FeatureType_of_code (n : nat) : FeatureType :=
  match n with 0 => DATA | 1 => MASK | _ => DATA_TIMELESS end.

#[global] Instance FeatureType_countable : Countable FeatureType.
Proof.
  apply (inj_countable' FeatureType_code FeatureType_of_code).
  intros []; reflexivity.
Defined.

(** A layer key is a Python pair [(FeatureType.X, 'name')]. *)
Abbreviation feature := (FeatureType * string)%type.

(** The container: layers keyed by [(category, name)]. *)
Abbreviation Patch := (gmap feature).

(** Exceptions.  [NameError] is raised by the interpreter when a global
    name is unbound, [KeyError] by a subscript on a missing key; anything
    else the library raises is a [LibraryError]. *)
Inductive exn :=
| NameError (name : string)
| KeyError (key : feature)
| LibraryError (msg : string).

Inductive Result (A : Type) :=
| Return (a : A)
| Raise (e : exn).
Arguments Return {A} a.
Arguments Raise {A} e.

(** A library function: it may change the world and either returns or
    raises. *)
Abbreviation ext W A := (W → Result A * W)%type.

Section Script.

(** [World] is whatever the library calls can observe and change (the
    file system, the plotting back end); [Layer] is the contents of one
    raster layer.  The script inspects neither. *)
Context {World Layer : Type}.

(** The object bound to [EOPatch]; the script uses its [load]. *)
Record EOPatch_class := {
  load : string → bool → ext World (Patch Layer)
}.

(** The object [ReactivTask(...)] returns; the script uses its [execute]. *)
Record ReactivTask_object := {
  execute : Patch Layer → ext World (Patch Layer)
}.

(** The global namespace the script runs in.  The script imports nothing,
    so each of the four names may be bound or not.  [g_ReactivTask] is the
    constructor, taking the positional and the keyword arguments. *)
Record Globals := {
  g_EOPatch : option EOPatch_class;
  g_FeatureType : option unit;
  g_ReactivTask :
    option (list feature → list (string * feature)
            → ext World ReactivTask_object);
  g_plot_results : option (Layer → ext World unit)
}.

(** Modelled from the spec: the container's subscript [eopatch[key]]
    belongs to the library; a missing layer key is a failure. *)
Definition getitem (eopatch : Patch Layer) (key : feature) : Result Layer :=
  match eopatch !! key with
  | Some l => Return l
  | None => Raise (KeyError key)
  end.

(** ** Trace of calls *)

(** What a script can ask of the library.  [CSetItem] and [CSave] are the
    container's write and write-back operations. *)
Inductive Call :=
| CLoad (path : string) (lazy_loading : bool)
| CInit (args : list feature) (kwargs : list (string * feature))
| CExecute (self : ReactivTask_object) (eopatch : Patch Layer)
| CSubscript (eopatch : Patch Layer) (key : feature)
| CPlot (l : Layer)
| CSetItem (eopatch : Patch Layer) (key : feature) (l : Layer)
| CSave (eopatch : Patch Layer) (path : string).

Inductive Value :=
| VPatch (eopatch : Patch Layer)
| VTask (t : ReactivTask_object)
| VLayer (l : Layer)
| VNone.

Inductive Outcome :=
| Returned (v : Value)
| Raised (e : exn).

Record State := {
  world : World;
  trace : list (Call * Outcome)
}.

Definition log (σ : State) (w : World) (ev : Call * Outcome) : State :=
  {| world := w; trace := trace σ ++ [ev] |}.

(** ** The script as a monadic program *)

Definition M (A : Type) : Type := State → Result A * State.

Definition bind {A B} (m : M A) (k : A → M B) : M B :=
  λ σ, match m σ with
       | (Return a, σ') => k a σ'
       | (Raise e, σ') => (Raise e, σ')
       end.

Notation "x ⇐ m ;; k" := (bind m (λ x, k))
  (at level 100, m at next level, right associativity).

(** Resolving a global name. *)
Definition name {A} (n : string) (binding : option A) : M A :=
  λ σ, match binding with
       | Some a => (Return a, σ)
       | None => (Raise (NameError n), σ)
       end.

Definition outcome {A} (inj : A → Value) (r : Result A) : Outcome :=
  match r with
  | Return a => Returned (inj a)
  | Raise e => Raised e
  end.

(** Calling into the library: the call and what came of it are logged. *)
Definition call {A} (c : Call) (f : ext World A) (inj : A → Value) : M A :=
  λ σ, let '(r, w) := f (world σ) in (r, log σ w (c, outcome inj r)).

Definition subscript (eopatch : Patch Layer) (key : feature) : M Layer :=
  call (CSubscript eopatch key) (λ w, (getitem eopatch key, w)) VLayer.

Definition sample_path : string := "../data/sentinel1_sample".

Section Lines.
Variable g : Globals.

(** [eopatch = EOPatch.load('../data/sentinel1_sample', lazy_loading=True)] *)
Definition line2 : M (Patch Layer) :=
  EOPatch ⇐ name "EOPatch" (g_EOPatch g);;
  call (CLoad sample_path true) (load EOPatch sample_path true) VPatch.

(** [reactiv = ReactivTask((FeatureType.DATA_TIMELESS, 'speckle_variability'),
                           data_feature=(FeatureType.DATA, 'IW_VV'),
                           mask_feature=(FeatureType.MASK, 'IS_DATA'))]
    The callee is evaluated before its arguments; each argument resolves
    [FeatureType] again. *)
Definition line5 : M ReactivTask_object :=
  ReactivTask ⇐ name "ReactivTask" (g_ReactivTask g);;
  _ ⇐ name "FeatureType" (g_FeatureType g);;
  let a0 := (DATA_TIMELESS, "speckle_variability") in
  _ ⇐ name "FeatureType" (g_FeatureType g);;
  let data_feature := (DATA, "IW_VV") in
  _ ⇐ name "FeatureType" (g_FeatureType g);;
  let mask_feature := (MASK, "IS_DATA") in
  let args := [a0] in
  let kwargs := [("data_feature", data_feature);
                 ("mask_feature", mask_feature)] in
  call (CInit args kwargs) (ReactivTask args kwargs) VTask.

(** [eopatch = reactiv.execute(eopatch)] *)
Definition line10 (eopatch : Patch Layer) (reactiv : ReactivTask_object)
  : M (Patch Layer) :=
  call (CExecute reactiv eopatch) (execute reactiv eopatch) VPatch.

(** [plot_results(eopatch[(FeatureType.DATA_TIMELESS, 'speckle_variability')])] *)
Definition line13 (eopatch : Patch Layer) : M unit :=
  plot_results ⇐ name "plot_results" (g_plot_results g);;
  _ ⇐ name "FeatureType" (g_FeatureType g);;
  let key := (DATA_TIMELESS, "speckle_variability") in
  l ⇐ subscript eopatch key;;
  call (CPlot l) (plot_results l) (λ _, VNone).

Definition sentinel1_image : M unit :=
  eopatch ⇐ line2;;
  reactiv ⇐ line5;;
  eopatch ⇐ line10 eopatch reactiv;;
  line13 eopatch.

(** ** The script as a transition system *)

(** A configuration is a program point (the number of the line about to
    run) with the module variables bound so far, or a final one. *)
Inductive Config :=
| At2 (σ : State)
| At5 (eopatch : Patch Layer) (σ : State)
| At10 (eopatch : Patch Layer) (reactiv : ReactivTask_object) (σ : State)
| At13 (eopatch : Patch Layer) (reactiv : ReactivTask_object) (σ : State)
| Done (σ : State)
| Failed (e : exn) (σ : State).

Definition state_of (c : Config) : State :=
  match c with
  | At2 σ | At5 _ σ | At10 _ _ σ | At13 _ _ σ | Done σ | Failed _ σ => σ
  end.

Definition terminal (c : Config) : bool :=
  match c with
  | Done _ | Failed _ _ => true
  | _ => false
  end.

(** The statement a configuration is about to run. *)
Definition line_of (c : Config) : option nat :=
  match c with
  | At2 _ => Some 2
  | At5 _ _ => Some 5
  | At10 _ _ _ => Some 10
  | At13 _ _ _ => Some 13
  | Done _ | Failed _ _ => None
  end.

(** Statements still ahead. *)
Definition remaining (c : Config) : nat :=
  match c with
  | At2 _ => 4
  | At5 _ _ => 3
  | At10 _ _ _ => 2
  | At13 _ _ _ => 1
  | Done _ | Failed _ _ => 0
  end.

Inductive step : Config → Config → Prop :=
(* line 2 *)
| step2_unbound σ :
    g_EOPatch g = None →
    step (At2 σ) (Failed (NameError "EOPatch") σ)
| step2_raise σ EOPatch e w :
    g_EOPatch g = Some EOPatch →
    load EOPatch "../data/sentinel1_sample" true (world σ) = (Raise e, w) →
    step (At2 σ)
         (Failed e (log σ w (CLoad "../data/sentinel1_sample" true, Raised e)))
| step2_return σ EOPatch eopatch w :
    g_EOPatch g = Some EOPatch →
    load EOPatch "../data/sentinel1_sample" true (world σ)
      = (Return eopatch, w) →
    step (At2 σ)
         (At5 eopatch (log σ w (CLoad "../data/sentinel1_sample" true,
                                Returned (VPatch eopatch))))
(* lines 5-7 *)
| step5_unbound eopatch σ :
    g_ReactivTask g = None →
    step (At5 eopatch σ) (Failed (NameError "ReactivTask") σ)
| step5_unbound_FeatureType eopatch σ ReactivTask :
    g_ReactivTask g = Some ReactivTask →
    g_FeatureType g = None →
    step (At5 eopatch σ) (Failed (NameError "FeatureType") σ)
| step5_raise eopatch σ ReactivTask e w :
    g_ReactivTask g = Some ReactivTask →
    g_FeatureType g = Some () →
    ReactivTask [(DATA_TIMELESS, "speckle_variability")]
                [("data_feature", (DATA, "IW_VV"));
                 ("mask_feature", (MASK, "IS_DATA"))] (world σ)
      = (Raise e, w) →
    step (At5 eopatch σ)
         (Failed e (log σ w
            (CInit [(DATA_TIMELESS, "speckle_variability")]
                   [("data_feature", (DATA, "IW_VV"));
                    ("mask_feature", (MASK, "IS_DATA"))], Raised e)))
| step5_return eopatch σ ReactivTask reactiv w :
    g_ReactivTask g = Some ReactivTask →
    g_FeatureType g = Some () →
    ReactivTask [(DATA_TIMELESS, "speckle_variability")]
                [("data_feature", (DATA, "IW_VV"));
                 ("mask_feature", (MASK, "IS_DATA"))] (world σ)
      = (Return reactiv, w) →
    step (At5 eopatch σ)
         (At10 eopatch reactiv (log σ w
            (CInit [(DATA_TIMELESS, "speckle_variability")]
                   [("data_feature", (DATA, "IW_VV"));
                    ("mask_feature", (MASK, "IS_DATA"))],
             Returned (VTask reactiv))))
(* line 10 *)
| step10_raise eopatch reactiv σ e w :
    execute reactiv eopatch (world σ) = (Raise e, w) →
    step (At10 eopatch reactiv σ)
         (Failed e (log σ w (CExecute reactiv eopatch, Raised e)))
| step10_return eopatch reactiv σ eopatch' w :
    execute reactiv eopatch (world σ) = (Return eopatch', w) →
    step (At10 eopatch reactiv σ)
         (At13 eopatch' reactiv
               (log σ w (CExecute reactiv eopatch, Returned (VPatch eopatch'))))
(* line 13 *)
| step13_unbound eopatch reactiv σ :
    g_plot_results g = None →
    step (At13 eopatch reactiv σ) (Failed (NameError "plot_results") σ)
| step13_unbound_FeatureType eopatch reactiv σ plot_results :
    g_plot_results g = Some plot_results →
    g_FeatureType g = None →
    step (At13 eopatch reactiv σ) (Failed (NameError "FeatureType") σ)
| step13_missing eopatch reactiv σ plot_results e :
    g_plot_results g = Some plot_results →
    g_FeatureType g = Some () →
    getitem eopatch (DATA_TIMELESS, "speckle_variability") = Raise e →
    step (At13 eopatch reactiv σ)
         (Failed e (log σ (world σ)
            (CSubscript eopatch (DATA_TIMELESS, "speckle_variability"),
             Raised e)))
| step13_raise eopatch reactiv σ plot_results l e w :
    g_plot_results g = Some plot_results →
    g_FeatureType g = Some () →
    getitem eopatch (DATA_TIMELESS, "speckle_variability") = Return l →
    plot_results l (world σ) = (Raise e, w) →
    step (At13 eopatch reactiv σ)
         (Failed e (log (log σ (world σ)
            (CSubscript eopatch (DATA_TIMELESS, "speckle_variability"),
             Returned (VLayer l))) w (CPlot l, Raised e)))
| step13_return eopatch reactiv σ plot_results l w :
    g_plot_results g = Some plot_results →
    g_FeatureType g = Some () →
    getitem eopatch (DATA_TIMELESS, "speckle_variability") = Return l →
    plot_results l (world σ) = (Return (), w) →
    step (At13 eopatch reactiv σ)
         (Done (log (log σ (world σ)
            (CSubscript eopatch (DATA_TIMELESS, "speckle_variability"),
             Returned (VLayer l))) w (CPlot l, Returned VNone))).

(** Running one statement with the monadic lines. *)
Definition enter {A} (r : Result A * State) (k : A → State → Config)
  : Config :=
  match r with
  | (Return a, σ) => k a σ
  | (Raise e, σ) => Failed e σ
  end.

Definition exec (c : Config) : option Config :=
  match c with
  | At2 σ => Some (enter (line2 σ) At5)
  | At5 eopatch σ => Some (enter (line5 σ) (At10 eopatch))
  | At10 eopatch reactiv σ =>
      Some (enter (line10 eopatch reactiv σ)
                  (λ eopatch', At13 eopatch' reactiv))
  | At13 eopatch reactiv σ => Some (enter (line13 eopatch σ) (λ _, Done))
  | Done _ | Failed _ _ => None
  end.

(** The whole script, from a state to its final configuration. *)
Definition run (σ : State) : Config :=
  enter (sentinel1_image σ) (λ _, Done).

(** Line numbers of the statements run on the way from a configuration,
    following [exec]; four steps are all the script has. *)
Fixpoint lines_from (fuel : nat) (c : Config) : list nat :=
  match fuel with
  | 0 => []
  | S fuel =>
      match line_of c, exec c with
      | Some n, Some c' => n :: lines_from fuel c'
      | _, _ => []
      end
  end.

(** Iterating [exec] until a final configuration or the fuel runs out. *)
Fixpoint exec_many (fuel : nat) (c : Config) : Config :=
  match fuel with
  | 0 => c
  | S fuel =>
      match exec c with
      | Some c' => exec_many fuel c'
      | None => c
      end
  end.

End Lines.

(** A fresh run: nothing logged yet. *)
Definition start (w : World) : State := {| world := w; trace := [] |}.

(** ** Reading a trace *)

Inductive Kind := KLoad | KInit | KExecute | KSubscript | KPlot | KSetItem | KSave.

Definition kind (c : Call) : Kind :=
  match c with
  | CLoad _ _ => KLoad
  | CInit _ _ => KInit
  | CExecute _ _ => KExecute
  | CSubscript _ _ => KSubscript
  | CPlot _ => KPlot
  | CSetItem _ _ _ => KSetItem
  | CSave _ _ => KSave
  end.

Definition kinds (tr : list (Call * Outcome)) : list Kind :=
  map (λ ev, kind (fst ev)) tr.

(** Keys the script itself subscripts the container with. *)
Definition script_reads (tr : list (Call * Outcome)) : list feature :=
  omap (λ ev, match fst ev with CSubscript _ k => Some k | _ => None end) tr.

(** Keys the script itself assigns in the container. *)
Definition script_writes (tr : list (Call * Outcome)) : list feature :=
  omap (λ ev, match fst ev with CSetItem _ k _ => Some k | _ => None end) tr.

(** Containers the script subscripts. *)
Definition subscripted (tr : list (Call * Outcome)) : list (Patch Layer) :=
  omap (λ ev, match fst ev with CSubscript c _ => Some c | _ => None end) tr.

(** Layers handed to the plotting function. *)
Definition plotted (tr : list (Call * Outcome)) : list Layer :=
  omap (λ ev, match fst ev with CPlot l => Some l | _ => None end) tr.

(** Arguments of the task constructions. *)
Definition constructions (tr : list (Call * Outcome))
  : list (list feature * list (string * feature)) :=
  omap (λ ev, match fst ev with CInit a k => Some (a, k) | _ => None end) tr.

(** ** Conditions on the namespace *)

(** Names the script refers to that the namespace does not bind. *)
Definition unbound (g : Globals) : list string :=
  match g_EOPatch g with Some _ => [] | None => ["EOPatch"] end
  ++ match g_FeatureType g with Some _ => [] | None => ["FeatureType"] end
  ++ match g_ReactivTask g with Some _ => [] | None => ["ReactivTask"] end
  ++ match g_plot_results g with Some _ => [] | None => ["plot_results"] end.


(** A task built with output key [out] changes, in [execute], no layer
    but the one under [out]. *)
Definition execute_keeps_others (g : Globals) : Prop :=
  ∀ ReactivTask out kwargs w reactiv w1 eopatch w2 eopatch' w3,
    g_ReactivTask g = Some ReactivTask →
    ReactivTask [out] kwargs w = (Return reactiv, w1) →
    execute reactiv eopatch w2 = (Return eopatch', w3) →
    ∀ k, k ≠ out → eopatch' !! k = eopatch !! k.


End Script.

Arguments EOPatch_class : clear implicits.
Arguments ReactivTask_object : clear implicits.
Arguments Globals : clear implicits.
Arguments State : clear implicits.
Arguments Config : clear implicits.
Arguments Call : clear implicits.
Arguments Value : clear implicits.
Arguments Outcome : clear implicits.

(** ** A reference library

    A small concrete library to run the script against: the world is a
    disk of saved patches and the list of figures drawn so far, a layer
    is a list of integers. *)

Record DemoWorld := {
  disk : gmap string (Patch (list Z));
  figures : list (list Z)
}.

Definition demo_load (path : string) (lazy_loading : bool)
  : ext DemoWorld (Patch (list Z)) :=
  λ w, match disk w !! path with
       | Some eopatch => (Return eopatch, w)
       | None => (Raise (LibraryError "no such directory"), w)
       end.

Definition demo_EOPatch : EOPatch_class DemoWorld (list Z) :=
  {| load := demo_load |}.

(** Modelled from the spec: the task (its class is defined outside this
    file) is "a unit of computation that reads named input layers and
    writes a named output layer".  Here it reads the data and the mask
    layer and stores their pointwise product under the output key. *)
Definition demo_execute (out data_feature mask_feature : feature)
  (eopatch : Patch (list Z)) : ext DemoWorld (Patch (list Z)) :=
  λ w, match eopatch !! data_feature, eopatch !! mask_feature with
       | Some d, Some m => (Return (<[out := zip_with Z.mul d m]> eopatch), w)
       | None, _ => (Raise (KeyError data_feature), w)
       | _, None => (Raise (KeyError mask_feature), w)
       end.

Definition kwarg (k : string) (kwargs : list (string * feature))
  : option feature :=
  (snd ∘ snd) <$> list_find (λ kv, fst kv = k) kwargs.

Definition demo_ReactivTask (args : list feature)
  (kwargs : list (string * feature))
  : ext DemoWorld (ReactivTask_object DemoWorld (list Z)) :=
  λ w, match args, kwarg "data_feature" kwargs, kwarg "mask_feature" kwargs with
       | [out], Some d, Some m => (Return {| execute := demo_execute out d m |}, w)
       | _, _, _ => (Raise (LibraryError "TypeError"), w)
       end.

Definition demo_plot_results (l : list Z) : ext DemoWorld unit :=
  λ w, (Return (), {| disk := disk w; figures := figures w ++ [l] |}).

Definition demo_globals : Globals DemoWorld (list Z) :=
  {| g_EOPatch := Some demo_EOPatch;
     g_FeatureType := Some ();
     g_ReactivTask := Some demo_ReactivTask;
     g_plot_results := Some demo_plot_results |}.

(** The same namespace with [plot_results] left out. *)
Definition demo_globals_no_plot : Globals DemoWorld (list Z) :=
  {| g_EOPatch := Some demo_EOPatch;
     g_FeatureType := Some ();
     g_ReactivTask := Some demo_ReactivTask;
     g_plot_results := None |}.

(** The same namespace with [EOPatch] left out. *)
Definition demo_globals_no_EOPatch : Globals DemoWorld (list Z) :=
  {| g_EOPatch := None;
     g_FeatureType := Some ();
     g_ReactivTask := Some demo_ReactivTask;
     g_plot_results := Some demo_plot_results |}.

Definition demo_patch : Patch (list Z) :=
  {[ (DATA, "IW_VV") := [3; 5; 8]%Z; (MASK, "IS_DATA") := [1; 0; 1]%Z ]}.

Definition demo_world : DemoWorld :=
  {| disk := {[ "../data/sentinel1_sample" := demo_patch ]}; figures := [] |}.

(** A disk without the sample directory. *)
Definition empty_world : DemoWorld := {| disk := ∅; figures := [] |}.

(** A sample saved without its mask layer. *)
Definition maskless_patch : Patch (list Z) :=
  {[ (DATA, "IW_VV") := [3; 5; 8]%Z ]}.

Definition maskless_world : DemoWorld :=
  {| disk := {[ "../data/sentinel1_sample" := maskless_patch ]};
     figures := [] |}.

(** A task that writes nothing: its [execute] hands the container back
    as it came. *)
Definition idle_ReactivTask (args : list feature)
  (kwargs : list (string * feature))
  : ext DemoWorld (ReactivTask_object DemoWorld (list Z)) :=
  λ w, (Return {| execute := λ eopatch w', (Return eopatch, w') |}, w).

Definition idle_task : ReactivTask_object DemoWorld (list Z) :=
  {| execute := λ eopatch w', (Return eopatch, w') |}.

Definition idle_globals : Globals DemoWorld (list Z) :=
  {| g_EOPatch := Some demo_EOPatch;
     g_FeatureType := Some ();
     g_ReactivTask := Some idle_ReactivTask;
     g_plot_results := Some demo_plot_results |}.

(** What the script is expected to do on [demo_world]: the task object it
    builds, the container the task returns, the calls it logs and the
    state it ends in. *)
Definition demo_task : ReactivTask_object DemoWorld (list Z) :=
  {| execute := demo_execute (DATA_TIMELESS, "speckle_variability")
                             (DATA, "IW_VV") (MASK, "IS_DATA") |}.

Definition demo_result : Patch (list Z) :=
  <[(DATA_TIMELESS, "speckle_variability") := [3; 0; 8]%Z]> demo_patch.

Definition demo_events : list (Call DemoWorld (list Z) * Outcome DemoWorld (list Z)) :=
  [ (CLoad "../data/sentinel1_sample" true, Returned (VPatch demo_patch));
    (CInit [(DATA_TIMELESS, "speckle_variability")]
           [("data_feature", (DATA, "IW_VV"));
            ("mask_feature", (MASK, "IS_DATA"))],
     Returned (VTask demo_task));
    (CExecute demo_task demo_patch, Returned (VPatch demo_result));
    (CSubscript demo_result (DATA_TIMELESS, "speckle_variability"),
     Returned (VLayer [3; 0; 8]%Z));
    (CPlot [3; 0; 8]%Z, Returned VNone) ].

Definition demo_final : State DemoWorld (list Z) :=
  {| world := {| disk := disk demo_world; figures := [[3; 0; 8]%Z] |};
     trace := demo_events |}.

(** ** The two embeddings agree *)

Ltac unfold_lines :=
  unfold run, sentinel1_image, line2, line5, line10, line13, subscript,
         bind, name, call, enter, outcome, sample_path in *.

(** Case analysis on everything a run depends on: which names are bound
    and what each library call answers. *)
Ltac split_match :=
  match goal with
  | |- context [match ?x with _ => _ end] =>
      lazymatch x with
      | context [match _ with _ => _ end] => fail
      | _ => destruct x eqn:?
      end
  | H : context [match ?x with _ => _ end] |- _ =>
      lazymatch x with
      | context [match _ with _ => _ end] => fail
      | _ => destruct x eqn:?
      end
  end.

Ltac run_cases := repeat (unfold_lines; simpl in *; try split_match).

Section Semantics.
Context {World Layer : Type}.
Variable g : Globals World Layer.

Lemma step_exec c c' : step g c c' → exec g c = Some c'.
Proof.
  destruct 1; simpl; f_equal; unfold_lines;
    repeat (simpl; match goal with H : _ = _ |- _ => rewrite H; clear H end);
    reflexivity.
Qed.

Lemma exec_step c c' : exec g c = Some c' → step g c c'.
Proof.
  destruct c; simpl; intros [= <-]; run_cases;
    repeat match goal with u : unit |- _ => destruct u end;
    econstructor; eauto.
Qed.

Lemma exec_terminal c : exec g c = None ↔ terminal c = true.
Proof. destruct c; simpl; split; congruence. Qed.

Lemma step_terminal c c' : step g c c' → terminal c = false.
Proof. destruct 1; reflexivity. Qed.

(** No two rules of [step] apply to one configuration with different
    results. *)
Lemma step_deterministic c c1 c2 : step g c c1 → step g c c2 → c1 = c2.
Proof.
  intros H1 H2.
  destruct H1; inversion H2; subst; congruence.
Qed.

(** Every statement run leaves one fewer to run. *)
Lemma step_remaining c c' : step g c c' → remaining c' < remaining c.
Proof. destruct 1; simpl; lia. Qed.

Lemma nsteps_remaining n c c' :
  nsteps (step g) n c c' → n + remaining c' ≤ remaining c.
Proof.
  induction 1 as [|n c1 c2 c3 Hstep _ IH]; [lia|].
  apply step_remaining in Hstep. lia.
Qed.

Lemma terminal_nf c : terminal c = true → nf (step g) c.
Proof.
  intros Ht [c' Hstep]. apply step_terminal in Hstep. congruence.
Qed.

Lemma rtc_step_deterministic c c1 c2 :
  rtc (step g) c c1 → terminal c1 = true →
  rtc (step g) c c2 → terminal c2 = true →
  c1 = c2.
Proof.
  intros H1. revert c2.
  induction H1 as [c|c c' c1 Hstep _ IH]; intros c2 Ht1 H2 Ht2.
  - destruct H2 as [|c c' c2 Hstep _]; [reflexivity|].
    apply step_terminal in Hstep. congruence.
  - destruct H2 as [|c c'' c2 Hstep' H2].
    + apply step_terminal in Hstep. congruence.
    + rewrite (step_deterministic _ _ _ Hstep' Hstep) in H2. auto.
Qed.

Lemma exec_many_nsteps fuel c :
  ∃ n, n ≤ fuel ∧ nsteps (step g) n c (exec_many g fuel c).
Proof.
  revert c. induction fuel as [|fuel IH]; intros c; simpl.
  - exists 0. split; [lia | constructor].
  - destruct (exec g c) as [c'|] eqn:E.
    + destruct (IH c') as (n & Hn & Hsteps).
      exists (S n). split; [lia|].
      econstructor; [apply exec_step, E | exact Hsteps].
    + exists 0. split; [lia | constructor].
Qed.

Lemma exec_many_terminal fuel c :
  remaining c ≤ fuel → terminal (exec_many g fuel c) = true.
Proof.
  revert c. induction fuel as [|fuel IH]; intros c Hle; simpl.
  - destruct c; simpl in *; (reflexivity || lia).
  - destruct (exec g c) as [c'|] eqn:E.
    + apply IH. apply exec_step, step_remaining in E. lia.
    + by apply exec_terminal.
Qed.

(** The monadic program computes what four rounds of [exec] compute. *)
Lemma run_exec_many σ : run g σ = exec_many g 4 (At2 σ).
Proof.
  unfold run, sentinel1_image, bind; simpl.
  destruct (line2 g σ) as [[eopatch|e] σ1]; simpl; [|reflexivity].
  destruct (line5 g σ1) as [[reactiv|e] σ2]; simpl; [|reflexivity].
  destruct (line10 eopatch reactiv σ2) as [[eopatch'|e] σ3]; simpl;
    [|reflexivity].
  destruct (line13 g eopatch' σ3) as [[[]|e] σ4]; reflexivity.
Qed.

Lemma run_terminal σ : terminal (run g σ) = true.
Proof. rewrite run_exec_many. apply exec_many_terminal. simpl. lia. Qed.

Lemma run_nsteps σ : ∃ n, n ≤ 4 ∧ nsteps (step g) n (At2 σ) (run g σ).
Proof. rewrite run_exec_many. apply exec_many_nsteps. Qed.

Lemma run_rtc σ : rtc (step g) (At2 σ) (run g σ).
Proof. destruct (run_nsteps σ) as (n & _ & H). eapply rtc_nsteps_2, H. Qed.

(** Any terminating sequence of steps ends where [run] ends. *)
Lemma rtc_run σ c :
  rtc (step g) (At2 σ) c → terminal c = true → c = run g σ.
Proof.
  intros H Ht.
  eapply rtc_step_deterministic; eauto using run_rtc, run_terminal.
Qed.

End Semantics.

(** ** Properties of the script *)

(** Membership in a trace that has been computed down to a list of events. *)
Ltac trace_mem :=
  repeat match goal with
  | H : _ ∈ [] |- _ => apply elem_of_nil in H; destruct H
  | H : _ ∈ _ :: _ |- _ => apply elem_of_cons in H; destruct H as [H|H]
  | H : (_, _) = (_, _) |- _ => injection H as ??
  end.

Section Properties.
Context {World Layer : Type}.
Variable g : Globals World Layer.

(** C1: whatever layer reaches the plotting function was read, under the
    key [(FeatureType.DATA_TIMELESS, 'speckle_variability')], from the
    container that the task's [execute] returned, and that key is the
    very key the task was constructed with as its output. *)
Theorem plotted_layer_from_executed_patch (w : World) (l : Layer) :
  l ∈ plotted (trace (state_of (run g (start w)))) →
  ∃ eopatch0 reactiv eopatch1 o,
    trace (state_of (run g (start w))) =
      [ (CLoad "../data/sentinel1_sample" true, Returned (VPatch eopatch0));
        (CInit [(DATA_TIMELESS, "speckle_variability")]
               [("data_feature", (DATA, "IW_VV"));
                ("mask_feature", (MASK, "IS_DATA"))],
         Returned (VTask reactiv));
        (CExecute reactiv eopatch0, Returned (VPatch eopatch1));
        (CSubscript eopatch1 (DATA_TIMELESS, "speckle_variability"),
         Returned (VLayer l));
        (CPlot l, o) ]
    ∧ (∃ w1 w2, execute reactiv eopatch0 w1 = (Return eopatch1, w2))
    ∧ eopatch1 !! (DATA_TIMELESS, "speckle_variability") = Some l
    ∧ plotted (trace (state_of (run g (start w)))) = [l].
Proof.
  intros H. run_cases; trace_mem; simplify_eq;
    match goal with
    | H : getitem _ _ = Return _ |- _ =>
        unfold getitem in H; destruct (_ !! _) eqn:?; simplify_eq
    end;
    repeat eexists; eauto.
Qed.

(** C3: the task is constructed once, with the single positional argument
    [(FeatureType.DATA_TIMELESS, 'speckle_variability')] and the two
    keyword arguments [data_feature=(FeatureType.DATA, 'IW_VV')] and
    [mask_feature=(FeatureType.MASK, 'IS_DATA')], and nothing else. *)
Theorem task_configuration (w : World) args kwargs o :
  (CInit args kwargs, o) ∈ trace (state_of (run g (start w))) →
  args = [(DATA_TIMELESS, "speckle_variability")]
  ∧ kwargs = [("data_feature", (DATA, "IW_VV"));
              ("mask_feature", (MASK, "IS_DATA"))]
  ∧ constructions (trace (state_of (run g (start w)))) = [(args, kwargs)].
Proof.
  intros H. run_cases; trace_mem; simplify_eq; auto.
Qed.

(** C5: an exception raised by a library call (load, construction,
    execute, the subscript, plot) is the script's own result, unchanged,
    and the raising call is the last one the script makes. *)
Theorem error_propagates (w : World) (c : Call World Layer) (e : exn) :
  (c, Raised e) ∈ trace (state_of (run g (start w))) →
  ∃ σ, run g (start w) = Failed e σ ∧ last (trace σ) = Some (c, Raised e).
Proof.
  intros H. run_cases; trace_mem; simplify_eq; eauto.
Qed.

(** C7: from one namespace and one starting state, any two complete runs
    end in the same configuration: the same calls with the same arguments
    and answers in the same order, the same world, the same result. *)
Theorem script_deterministic (σ : State World Layer) c1 c2 :
  rtc (step g) (At2 σ) c1 → terminal c1 = true →
  rtc (step g) (At2 σ) c2 → terminal c2 = true →
  c1 = c2
  ∧ trace (state_of c1) = trace (state_of c2)
  ∧ plotted (trace (state_of c1)) = plotted (trace (state_of c2)).
Proof.
  intros H1 Ht1 H2 Ht2.
  assert (c1 = c2) as -> by (eapply rtc_step_deterministic; eauto).
  auto.
Qed.

(** C10: the script is straight-line code.  From any starting state it
    reaches a final configuration, the one [run] computes, in at most
    four steps; a final configuration has no successor, and no sequence
    of steps is longer than four. *)
Theorem script_terminates (σ : State World Layer) :
  (∃ n, n ≤ 4 ∧ nsteps (step g) n (At2 σ) (run g σ))
  ∧ terminal (run g σ) = true
  ∧ nf (step g) (run g σ)
  ∧ (∀ n c, nsteps (step g) n (At2 σ) c → n ≤ 4).
Proof.
  split; [apply run_nsteps|].
  split; [apply run_terminal|].
  split; [apply terminal_nf, run_terminal|].
  intros n c H. apply nsteps_remaining in H. simpl in H. lia.
Qed.





(** C2, amended: the script names three keys, the two it passes to the
    task as inputs and the one it passes as output; its own only access
    to the container is one subscript read of the output key, on the
    container [execute] returned.  It assigns no layer and saves nothing,
    and the container it hands to [execute] is the one [load] returned.
    Hence, if the task's [execute] changes no layer but its output layer,
    every other layer of the subscripted container is as it was loaded. *)
Theorem container_accesses (w : World) :
  (script_reads (trace (state_of (run g (start w)))) = []
   ∨ script_reads (trace (state_of (run g (start w))))
     = [(DATA_TIMELESS, "speckle_variability")])
  ∧ script_writes (trace (state_of (run g (start w)))) = []
  ∧ (KSetItem ∉ kinds (trace (state_of (run g (start w)))))
  ∧ (KSave ∉ kinds (trace (state_of (run g (start w)))))
  ∧ (∀ args kwargs o,
       (CInit args kwargs, o) ∈ trace (state_of (run g (start w))) →
       args = [(DATA_TIMELESS, "speckle_variability")]
       ∧ kwargs = [("data_feature", (DATA, "IW_VV"));
                   ("mask_feature", (MASK, "IS_DATA"))])
  ∧ (∀ self c o,
       (CExecute self c, o) ∈ trace (state_of (run g (start w))) →
       head (trace (state_of (run g (start w))))
       = Some (CLoad "../data/sentinel1_sample" true, Returned (VPatch c)))
  ∧ (execute_keeps_others g →
     ∀ c0 c1 k1 o1 k,
       head (trace (state_of (run g (start w))))
       = Some (CLoad "../data/sentinel1_sample" true, Returned (VPatch c0)) →
       (CSubscript c1 k1, o1) ∈ trace (state_of (run g (start w))) →
       k ≠ (DATA_TIMELESS, "speckle_variability") →
       c1 !! k = c0 !! k).
Proof.
  split; [run_cases; auto|].
  split; [run_cases; auto|].
  split; [intros H; run_cases; trace_mem; simplify_eq|].
  split; [intros H; run_cases; trace_mem; simplify_eq|].
  split; [intros args kwargs o H; run_cases; trace_mem; simplify_eq; auto|].
  split; [intros self c o H; run_cases; trace_mem; simplify_eq; auto|].
  intros Hkeep c0 c1 k1 o1 k Hhead Hin Hk.
  run_cases; trace_mem; simplify_eq;
    match goal with
    | Hi : g_ReactivTask g = Some _, Hc : _ = (Return ?t, _),
      He : execute ?t _ _ = (Return _, _) |- _ =>
        exact (Hkeep _ _ _ _ _ _ _ _ _ _ Hi Hc He k Hk)
    end.
Qed.

(** C6, amended: the first statement run is line 2 and the first call the
    script makes is [load] with the path ['../data/sentinel1_sample'] and
    [lazy_loading=True]; what it returns is the container handed to
    [execute]; the container subscripted for plotting is the one
    [execute] returned. *)
Theorem load_comes_first (w : World) :
  (∀ fuel, head (lines_from g (S fuel) (At2 (start w))) = Some 2)
  ∧ (∀ ev,
       head (trace (state_of (run g (start w)))) = Some ev →
       fst ev = CLoad "../data/sentinel1_sample" true)
  ∧ (∀ self c o,
       (CExecute self c, o) ∈ trace (state_of (run g (start w))) →
       head (trace (state_of (run g (start w))))
       = Some (CLoad "../data/sentinel1_sample" true, Returned (VPatch c)))
  ∧ (∀ c k o,
       (CSubscript c k, o) ∈ trace (state_of (run g (start w))) →
       ∃ self c0,
         (CExecute self c0, Returned (VPatch c))
         ∈ trace (state_of (run g (start w)))).
Proof.
  split; [reflexivity|].
  split; [intros ev H; run_cases; simplify_eq; reflexivity|].
  split; [intros self c o H; run_cases; trace_mem; simplify_eq; auto|].
  intros c k o H.
  run_cases; trace_mem; simplify_eq; do 2 eexists;
    repeat first [apply list_elem_of_here | apply list_elem_of_further].
Qed.

(** C8, amended: the four names come from the enclosing namespace, and no
    run completes unless all four are bound.  An unbound [EOPatch] fails
    line 2 before any call is made.  An unbound [ReactivTask] or
    [FeatureType] fails line 5, once [load] has been called and has
    returned; an unbound [plot_results] fails line 13, once [load], the
    constructor and [execute] have been called and have returned. *)
Theorem unbound_names (w : World) :
  (∀ σ, run g (start w) = Done σ → unbound g = [])
  ∧ (g_EOPatch g = None →
     run g (start w) = Failed (NameError "EOPatch") (start w))
  ∧ (∀ eopatch σ,
       exec_many g 1 (At2 (start w)) = At5 eopatch σ →
       kinds (trace σ) = [KLoad]
       ∧ (g_ReactivTask g = None →
          run g (start w) = Failed (NameError "ReactivTask") σ)
       ∧ (is_Some (g_ReactivTask g) → g_FeatureType g = None →
          run g (start w) = Failed (NameError "FeatureType") σ))
  ∧ (∀ eopatch reactiv σ,
       exec_many g 3 (At2 (start w)) = At13 eopatch reactiv σ →
       kinds (trace σ) = [KLoad; KInit; KExecute]
       ∧ (g_plot_results g = None →
          run g (start w) = Failed (NameError "plot_results") σ)).
Proof.
  split; [intros σ H; unfold unbound; run_cases; simplify_eq; simpl; first [reflexivity | congruence]|].
  split; [intros H; run_cases; simplify_eq; simpl; first [reflexivity | congruence]|].
  split.
  - intros eopatch σ H.
    split; [run_cases; simplify_eq; simpl; first [reflexivity | congruence]|].
    split; [intros Hn|intros [? Hs] Hn]; run_cases; simplify_eq; simpl; first [reflexivity | congruence].
  - intros eopatch reactiv σ H.
    split; [|intros Hn]; repeat (progress (run_cases; simplify_eq));
      simpl; first [reflexivity | congruence].
Qed.

End Properties.

(** ** The script on the reference library *)

Lemma demo_run : run demo_globals (start demo_world) = Done demo_final.
Proof. vm_compute. reflexivity. Qed.

(** The same run, rule by rule. *)
Lemma demo_steps :
  rtc (step demo_globals) (At2 (start demo_world)) (Done demo_final).
Proof.
  eapply rtc_l; [eapply step2_return; reflexivity|].
  eapply rtc_l; [eapply step5_return; reflexivity|].
  eapply rtc_l; [eapply step10_return; reflexivity|].
  eapply rtc_l; [eapply step13_return; reflexivity|].
  apply rtc_refl.
Qed.

Lemma maskless_run :
  run demo_globals (start maskless_world)
  = Failed (KeyError (MASK, "IS_DATA"))
      {| world := maskless_world;
         trace := [ (CLoad "../data/sentinel1_sample" true,
                     Returned (VPatch maskless_patch));
                    (CInit [(DATA_TIMELESS, "speckle_variability")]
                           [("data_feature", (DATA, "IW_VV"));
                            ("mask_feature", (MASK, "IS_DATA"))],
                     Returned (VTask demo_task));
                    (CExecute demo_task maskless_patch,
                     Raised (KeyError (MASK, "IS_DATA"))) ] |}.
Proof. vm_compute. reflexivity. Qed.

(** No sample directory: [load] raises and the script stops there. *)
Example empty_disk_run :
  run demo_globals (start empty_world)
  = Failed (LibraryError "no such directory")
      {| world := empty_world;
         trace := [ (CLoad "../data/sentinel1_sample" true,
                     Raised (LibraryError "no such directory")) ] |}.
Proof. vm_compute. reflexivity. Qed.

(** [EOPatch] unbound: nothing is called. *)
Example unbound_EOPatch_run :
  run demo_globals_no_EOPatch (start demo_world)
  = Failed (NameError "EOPatch") (start demo_world).
Proof. reflexivity. Qed.


(** ... and no other layer. *)
Lemma demo_execute_keeps_others : execute_keeps_others demo_globals.
Proof.
  intros ctor out kwargs w reactiv w1 eopatch w2 eopatch' w3 Hctor Hnew Hex
         k Hk.
  simpl in Hctor. injection Hctor as <-.
  unfold demo_ReactivTask in Hnew.
  destruct (kwarg "data_feature" kwargs) as [d|]; [|discriminate].
  destruct (kwarg "mask_feature" kwargs) as [m|]; [|discriminate].
  injection Hnew as <- _. simpl in Hex. unfold demo_execute in Hex.
  destruct (eopatch !! d), (eopatch !! m); simplify_eq.
  by rewrite lookup_insert_ne.
Qed.

Lemma demo_trace :
  trace (state_of (run demo_globals (start demo_world))) = demo_events.
Proof. rewrite demo_run. reflexivity. Qed.

(** *** Instances of the theorems *)

Lemma plotted_layer_from_executed_patch_witness :
  [3; 0; 8]%Z ∈ plotted (trace (state_of (run demo_globals (start demo_world))))
  ∧ ∃ eopatch0 reactiv eopatch1 o,
      trace (state_of (run demo_globals (start demo_world))) =
        [ (CLoad "../data/sentinel1_sample" true, Returned (VPatch eopatch0));
          (CInit [(DATA_TIMELESS, "speckle_variability")]
                 [("data_feature", (DATA, "IW_VV"));
                  ("mask_feature", (MASK, "IS_DATA"))],
           Returned (VTask reactiv));
          (CExecute reactiv eopatch0, Returned (VPatch eopatch1));
          (CSubscript eopatch1 (DATA_TIMELESS, "speckle_variability"),
           Returned (VLayer [3; 0; 8]%Z));
          (CPlot [3; 0; 8]%Z, o) ]
      ∧ (∃ w1 w2, execute reactiv eopatch0 w1 = (Return eopatch1, w2))
      ∧ eopatch1 !! (DATA_TIMELESS, "speckle_variability") = Some [3; 0; 8]%Z
      ∧ plotted (trace (state_of (run demo_globals (start demo_world))))
        = [[3; 0; 8]%Z].
Proof.
  assert ([3; 0; 8]%Z
          ∈ plotted (trace (state_of (run demo_globals (start demo_world)))))
    as H by (rewrite demo_trace; apply list_elem_of_here).
  split; [exact H|].
  exact (plotted_layer_from_executed_patch demo_globals demo_world _ H).
Defined.

Lemma task_configuration_witness :
  (CInit [(DATA_TIMELESS, "speckle_variability")]
         [("data_feature", (DATA, "IW_VV"));
          ("mask_feature", (MASK, "IS_DATA"))],
   Returned (VTask demo_task))
  ∈ trace (state_of (run demo_globals (start demo_world)))
  ∧ constructions (trace (state_of (run demo_globals (start demo_world))))
    = [([(DATA_TIMELESS, "speckle_variability")],
        [("data_feature", (DATA, "IW_VV"));
         ("mask_feature", (MASK, "IS_DATA"))])].
Proof.
  assert ((CInit [(DATA_TIMELESS, "speckle_variability")]
                 [("data_feature", (DATA, "IW_VV"));
                  ("mask_feature", (MASK, "IS_DATA"))],
           Returned (VTask demo_task))
          ∈ trace (state_of (run demo_globals (start demo_world))))
    as H by (rewrite demo_trace; apply list_elem_of_further, list_elem_of_here).
  split; [exact H|].
  exact (proj2 (proj2 (task_configuration demo_globals demo_world _ _ _ H))).
Defined.


Lemma error_propagates_witness :
  (CExecute demo_task maskless_patch, Raised (KeyError (MASK, "IS_DATA")))
  ∈ trace (state_of (run demo_globals (start maskless_world)))
  ∧ ∃ σ, run demo_globals (start maskless_world)
         = Failed (KeyError (MASK, "IS_DATA")) σ
         ∧ last (trace σ)
           = Some (CExecute demo_task maskless_patch,
                   Raised (KeyError (MASK, "IS_DATA"))).
Proof.
  assert ((CExecute demo_task maskless_patch,
           Raised (KeyError (MASK, "IS_DATA")))
          ∈ trace (state_of (run demo_globals (start maskless_world))))
    as H by (rewrite maskless_run; simpl;
             do 2 apply list_elem_of_further; apply list_elem_of_here).
  split; [exact H|].
  exact (error_propagates demo_globals maskless_world _ _ H).
Defined.

Lemma script_deterministic_witness :
  rtc (step demo_globals) (At2 (start demo_world)) (Done demo_final)
  ∧ rtc (step demo_globals) (At2 (start demo_world))
        (run demo_globals (start demo_world))
  ∧ Done demo_final = run demo_globals (start demo_world)
  ∧ trace demo_final = trace (state_of (run demo_globals (start demo_world)))
  ∧ plotted (trace demo_final)
    = plotted (trace (state_of (run demo_globals (start demo_world)))).
Proof.
  split; [exact demo_steps|].
  split; [apply run_rtc|].
  exact (script_deterministic demo_globals (start demo_world)
           (Done demo_final) (run demo_globals (start demo_world))
           demo_steps eq_refl (run_rtc _ _) (run_terminal _ _)).
Defined.


Lemma script_terminates_witness :
  (∃ n, n ≤ 4 ∧ nsteps (step demo_globals) n (At2 (start demo_world))
                       (run demo_globals (start demo_world)))
  ∧ terminal (run demo_globals (start demo_world)) = true
  ∧ nf (step demo_globals) (run demo_globals (start demo_world))
  ∧ (∀ n c, nsteps (step demo_globals) n (At2 (start demo_world)) c → n ≤ 4).
Proof. exact (script_terminates demo_globals (start demo_world)). Defined.

Lemma container_accesses_witness :
  execute_keeps_others demo_globals
  ∧ script_reads (trace (state_of (run demo_globals (start demo_world))))
    = [(DATA_TIMELESS, "speckle_variability")]
  ∧ script_writes (trace (state_of (run demo_globals (start demo_world)))) = []
  ∧ demo_result !! (DATA, "IW_VV") = demo_patch !! (DATA, "IW_VV").
Proof.
  split; [exact demo_execute_keeps_others|].
  destruct (container_accesses demo_globals demo_world)
    as (Hreads & Hwrites & _ & _ & _ & _ & Hframe).
  split; [|split; [exact Hwrites|]].
  - destruct Hreads as [Hnone|Hone]; [|exact Hone].
    rewrite demo_trace in Hnone. discriminate Hnone.
  - apply (Hframe demo_execute_keeps_others demo_patch demo_result
             (DATA_TIMELESS, "speckle_variability")
             (Returned (VLayer [3; 0; 8]%Z)) (DATA, "IW_VV")).
    + rewrite demo_trace. reflexivity.
    + rewrite demo_trace.
      do 3 apply list_elem_of_further. apply list_elem_of_here.
    + discriminate.
Defined.

Lemma load_comes_first_witness :
  head (lines_from demo_globals 4 (At2 (start demo_world))) = Some 2
  ∧ head (trace (state_of (run demo_globals (start demo_world))))
    = Some (CLoad "../data/sentinel1_sample" true,
            Returned (VPatch demo_patch))
  ∧ ∃ self c0,
      (CExecute self c0, Returned (VPatch demo_result))
      ∈ trace (state_of (run demo_globals (start demo_world))).
Proof.
  destruct (load_comes_first demo_globals demo_world)
    as (Hline & _ & Hexec & Hsub).
  split; [exact (Hline 3)|].
  split.
  - apply (Hexec demo_task demo_patch (Returned (VPatch demo_result))).
    rewrite demo_trace.
    do 2 apply list_elem_of_further. apply list_elem_of_here.
  - apply (Hsub demo_result (DATA_TIMELESS, "speckle_variability")
             (Returned (VLayer [3; 0; 8]%Z))).
    rewrite demo_trace.
    do 3 apply list_elem_of_further. apply list_elem_of_here.
Defined.

Lemma unbound_names_witness :
  g_plot_results demo_globals_no_plot = None
  ∧ ∃ σ, run demo_globals_no_plot (start demo_world)
         = Failed (NameError "plot_results") σ
         ∧ kinds (trace σ) = [KLoad; KInit; KExecute].
Proof.
  split; [reflexivity|].
  destruct (unbound_names demo_globals_no_plot demo_world)
    as (_ & _ & _ & Hplot).
  destruct (Hplot demo_result demo_task
              {| world := demo_world;
                 trace := [ (CLoad "../data/sentinel1_sample" true,
                             Returned (VPatch demo_patch));
                            (CInit [(DATA_TIMELESS, "speckle_variability")]
                                   [("data_feature", (DATA, "IW_VV"));
                                    ("mask_feature", (MASK, "IS_DATA"))],
                             Returned (VTask demo_task));
                            (CExecute demo_task demo_patch,
                             Returned (VPatch demo_result)) ] |}
              eq_refl) as [Hkinds Hfail].
  eexists. split; [exact (Hfail eq_refl) | exact Hkinds].
Defined.

(** *** Where the specification says more than the script does *)

(** C2 as stated has the script read only [(DATA, 'IW_VV')] and
    [(MASK, 'IS_DATA')]; line 13 subscripts the container with
    [(DATA_TIMELESS, 'speckle_variability')]. *)
Lemma script_reads_output_key :
  ¬ (∀ k,
       k ∈ script_reads (trace (state_of (run demo_globals (start demo_world)))) →
       k = (DATA, "IW_VV") ∨ k = (MASK, "IS_DATA")).
Proof.
  intros H.
  destruct (H (DATA_TIMELESS, "speckle_variability")) as [Hk|Hk];
    [|discriminate Hk|discriminate Hk].
  rewrite demo_trace. apply list_elem_of_here.
Qed.

(** C6 as stated has every later operation use the container [load]
    returned; line 10 rebinds [eopatch], and line 13 subscripts what
    [execute] returned. *)
Lemma plot_uses_executed_container :
  ¬ (∀ c0 c,
       head (trace (state_of (run demo_globals (start demo_world))))
       = Some (CLoad "../data/sentinel1_sample" true, Returned (VPatch c0)) →
       c ∈ subscripted (trace (state_of (run demo_globals (start demo_world)))) →
       c = c0).
Proof.
  intros H.
  assert (demo_result = demo_patch) as Heq.
  { apply H.
    - rewrite demo_trace. reflexivity.
    - rewrite demo_trace. apply list_elem_of_here. }
  assert (demo_result !! (DATA_TIMELESS, "speckle_variability")
          = demo_patch !! (DATA_TIMELESS, "speckle_variability")) as Hl
    by (rewrite Heq; reflexivity).
  vm_compute in Hl. discriminate Hl.
Qed.

(** C8 as stated has every unbound name fail at line 2, before any
    library work; with only [plot_results] unbound the script has called
    [load], the constructor and [execute] by the time it fails. *)
Lemma unbound_plot_results_fails_late :
  ¬ (unbound demo_globals_no_plot ≠ [] →
     trace (state_of (run demo_globals_no_plot (start demo_world))) = []).
Proof.
  intros H.
  assert (unbound demo_globals_no_plot ≠ []) as Hne by discriminate.
  apply H in Hne. vm_compute in Hne. discriminate Hne.
Qed.

(** ** Further properties of the script *)

Section Further.
Context {World Layer : Type}.
Variable g : Globals World Layer.

(** X1: when the script completes.  A run from world [w] completes exactly
    when all four names are bound and the calls succeed in a chain, each
    one starting in the world the one before left: [load] returns a
    container, the constructor a task, the task's [execute] on the loaded
    container another container, that container has the
    [speckle_variability] layer, and [plot_results] returns on that
    layer.  The world the script leaves is the one [plot_results] left. *)
Theorem run_completes_iff (w : World) (σ : State World Layer) :
  run g (start w) = Done σ ↔
  ∃ EOPatch ReactivTask plot_results eopatch w1 reactiv w2 eopatch' w3 l w4,
    g_EOPatch g = Some EOPatch
    ∧ g_FeatureType g = Some ()
    ∧ g_ReactivTask g = Some ReactivTask
    ∧ g_plot_results g = Some plot_results
    ∧ load EOPatch "../data/sentinel1_sample" true w = (Return eopatch, w1)
    ∧ ReactivTask [(DATA_TIMELESS, "speckle_variability")]
                  [("data_feature", (DATA, "IW_VV"));
                   ("mask_feature", (MASK, "IS_DATA"))] w1
      = (Return reactiv, w2)
    ∧ execute reactiv eopatch w2 = (Return eopatch', w3)
    ∧ eopatch' !! (DATA_TIMELESS, "speckle_variability") = Some l
    ∧ plot_results l w3 = (Return (), w4)
    ∧ world σ = w4
    ∧ trace σ =
        [ (CLoad "../data/sentinel1_sample" true, Returned (VPatch eopatch));
          (CInit [(DATA_TIMELESS, "speckle_variability")]
                 [("data_feature", (DATA, "IW_VV"));
                  ("mask_feature", (MASK, "IS_DATA"))],
           Returned (VTask reactiv));
          (CExecute reactiv eopatch, Returned (VPatch eopatch'));
          (CSubscript eopatch' (DATA_TIMELESS, "speckle_variability"),
           Returned (VLayer l));
          (CPlot l, Returned VNone) ].
Proof.
  split.
  - intros H. run_cases; simplify_eq.
    repeat match goal with u : unit |- _ => destruct u end.
    match goal with
    | Hg : getitem _ _ = Return _ |- _ =>
        unfold getitem in Hg; destruct (_ !! _) eqn:Hl in Hg; simplify_eq
    end.
    do 11 eexists. repeat (split; [eassumption || reflexivity|]). reflexivity.
  - intros (EOPatch & ReactivTask & plot_results & eopatch & w1 & reactiv & w2
            & eopatch' & w3 & l & w4 & HE & HF & HR & HP & Hload & Hnew
            & Hex & Hl & Hplot & Hw & Htr).
    unfold_lines. simpl.
    rewrite HE. simpl. rewrite Hload. simpl.
    rewrite HR, HF. simpl. rewrite Hnew. simpl.
    rewrite Hex. simpl.
    rewrite HP. unfold getitem. rewrite Hl. simpl. rewrite Hplot. simpl.
    destruct σ as [wσ trσ]. simpl in *. subst. reflexivity.
Qed.

(** X2: the script raises nothing of its own.  Whenever a run fails, the
    exception is either the one the last call made has raised, or the
    interpreter's [NameError] for a name the namespace does not bind, in
    which case every call made so far has returned. *)
Theorem failure_has_a_cause (w : World) (e : exn) (σ : State World Layer) :
  run g (start w) = Failed e σ →
  (∃ c, last (trace σ) = Some (c, Raised e))
  ∨ (∃ n, e = NameError n ∧ n ∈ unbound g
          ∧ ∀ c o, (c, o) ∈ trace σ → ∃ v, o = Returned v).
Proof.
  intros H. unfold unbound.
  run_cases; simplify_eq; simpl;
    first
      [ left; eexists; reflexivity
      | right; eexists; split; [reflexivity|]; split;
        [ repeat first [apply list_elem_of_here | apply list_elem_of_further]
        | intros c o Hin; trace_mem; simplify_eq; eauto ] ].
Qed.

(** X3: the calls a run makes, complete or not, are an initial part of
    load, construct, execute, subscript, plot: no call is made before the
    ones ahead of it in the script have been made, and none twice. *)
Theorem calls_in_fixed_order (w : World) :
  kinds (trace (state_of (run g (start w))))
  `prefix_of` [KLoad; KInit; KExecute; KSubscript; KPlot].
Proof.
  run_cases; repeat apply prefix_cons; apply prefix_nil.
Qed.

(** X4: a task that returns a container without the
    [speckle_variability] layer makes line 13 fail: the run ends with
    [KeyError] for that key, raised by the subscript, and nothing is
    plotted. *)
Theorem missing_output_key_raises (w : World) self eopatch eopatch' :
  (CExecute self eopatch, Returned (VPatch eopatch'))
  ∈ trace (state_of (run g (start w))) →
  eopatch' !! (DATA_TIMELESS, "speckle_variability") = None →
  is_Some (g_plot_results g) →
  ∃ σ,
    run g (start w)
    = Failed (KeyError (DATA_TIMELESS, "speckle_variability")) σ
    ∧ last (trace σ)
      = Some (CSubscript eopatch' (DATA_TIMELESS, "speckle_variability"),
              Raised (KeyError (DATA_TIMELESS, "speckle_variability")))
    ∧ plotted (trace σ) = [].
Proof.
  intros Hin Hnone [plot Hplot].
  run_cases; trace_mem; simplify_eq;
    match goal with
    | Hg : getitem _ _ = _ |- _ =>
        unfold getitem in Hg; rewrite Hnone in Hg; simplify_eq
    end.
  eexists. repeat split.
Qed.

(** X5: where an unbound name is noticed.  If a run ends in a [NameError]
    that no call has raised, then it names [EOPatch] and no call was
    made, or it names [ReactivTask] or [FeatureType] and only [load] was
    called, or it names [plot_results] and load, construction and execute
    were called; [FeatureType] is never the name missed on line 13. *)
Theorem NameError_location (w : World) (n : string) (σ : State World Layer) :
  run g (start w) = Failed (NameError n) σ →
  (∀ c, (c, Raised (NameError n)) ∉ trace σ) →
  (n = "EOPatch" ∧ g_EOPatch g = None ∧ kinds (trace σ) = [])
  ∨ (n = "ReactivTask" ∧ g_ReactivTask g = None ∧ kinds (trace σ) = [KLoad])
  ∨ (n = "FeatureType" ∧ g_FeatureType g = None
     ∧ is_Some (g_ReactivTask g) ∧ kinds (trace σ) = [KLoad])
  ∨ (n = "plot_results" ∧ g_plot_results g = None
     ∧ g_FeatureType g = Some () ∧ is_Some (g_ReactivTask g)
     ∧ kinds (trace σ) = [KLoad; KInit; KExecute]).
Proof.
  intros H Hraised.
  run_cases; simplify_eq; simpl in *;
    repeat match goal with u : unit |- _ => destruct u end;
    try solve
      [ exfalso; eapply Hraised;
        repeat first [apply list_elem_of_here | apply list_elem_of_further] ];
    eauto 10.
Qed.

End Further.

(** *** Instances on the reference library *)

Lemma no_plot_run :
  run demo_globals_no_plot (start demo_world)
  = Failed (NameError "plot_results")
      {| world := demo_world;
         trace := [ (CLoad "../data/sentinel1_sample" true,
                     Returned (VPatch demo_patch));
                    (CInit [(DATA_TIMELESS, "speckle_variability")]
                           [("data_feature", (DATA, "IW_VV"));
                            ("mask_feature", (MASK, "IS_DATA"))],
                     Returned (VTask demo_task));
                    (CExecute demo_task demo_patch,
                     Returned (VPatch demo_result)) ] |}.
Proof. vm_compute. reflexivity. Qed.

Lemma idle_trace :
  trace (state_of (run idle_globals (start demo_world)))
  = [ (CLoad "../data/sentinel1_sample" true, Returned (VPatch demo_patch));
      (CInit [(DATA_TIMELESS, "speckle_variability")]
             [("data_feature", (DATA, "IW_VV"));
              ("mask_feature", (MASK, "IS_DATA"))],
       Returned (VTask idle_task));
      (CExecute idle_task demo_patch, Returned (VPatch demo_patch));
      (CSubscript demo_patch (DATA_TIMELESS, "speckle_variability"),
       Raised (KeyError (DATA_TIMELESS, "speckle_variability"))) ].
Proof. vm_compute. reflexivity. Qed.

Lemma run_completes_iff_witness :
  run demo_globals (start demo_world) = Done demo_final.
Proof.
  apply (proj2 (run_completes_iff demo_globals demo_world demo_final)).
  exists demo_EOPatch, demo_ReactivTask, demo_plot_results, demo_patch,
         demo_world, demo_task, demo_world, demo_result, demo_world,
         [3; 0; 8]%Z, (world demo_final).
  repeat split; reflexivity.
Defined.

Lemma failure_has_a_cause_witness :
  (∃ σ, run demo_globals_no_plot (start demo_world)
        = Failed (NameError "plot_results") σ)
  ∧ "plot_results" ∈ unbound demo_globals_no_plot.
Proof.
  split; [eexists; exact no_plot_run|].
  destruct (failure_has_a_cause demo_globals_no_plot demo_world _ _ no_plot_run)
    as [[c Hlast]|(n & Hn & Hin & _)].
  - simpl in Hlast. discriminate Hlast.
  - injection Hn as <-. exact Hin.
Defined.

Lemma missing_output_key_raises_witness :
  (CExecute idle_task demo_patch, Returned (VPatch demo_patch))
  ∈ trace (state_of (run idle_globals (start demo_world)))
  ∧ demo_patch !! (DATA_TIMELESS, "speckle_variability") = None
  ∧ ∃ σ,
      run idle_globals (start demo_world)
      = Failed (KeyError (DATA_TIMELESS, "speckle_variability")) σ
      ∧ last (trace σ)
        = Some (CSubscript demo_patch (DATA_TIMELESS, "speckle_variability"),
                Raised (KeyError (DATA_TIMELESS, "speckle_variability")))
      ∧ plotted (trace σ) = [].
Proof.
  assert ((CExecute idle_task demo_patch, Returned (VPatch demo_patch))
          ∈ trace (state_of (run idle_globals (start demo_world)))) as Hin
    by (rewrite idle_trace;
        do 2 apply list_elem_of_further; apply list_elem_of_here).
  assert (demo_patch !! (DATA_TIMELESS, "speckle_variability") = None)
    as Hnone by reflexivity.
  split; [exact Hin|]. split; [exact Hnone|].
  apply (missing_output_key_raises idle_globals demo_world _ _ _ Hin Hnone).
  simpl. eauto.
Defined.

Lemma NameError_location_witness :
  g_plot_results demo_globals_no_plot = None
  ∧ ∃ σ, run demo_globals_no_plot (start demo_world)
         = Failed (NameError "plot_results") σ
         ∧ kinds (trace σ) = [KLoad; KInit; KExecute].
Proof.
  split; [reflexivity|].
  eexists. split; [exact no_plot_run|].
  destruct (NameError_location demo_globals_no_plot demo_world _ _ no_plot_run)
    as [(Hn & _)|[(Hn & _)|[(Hn & _)|(_ & _ & _ & _ & Hk)]]];
    [| discriminate Hn | discriminate Hn | discriminate Hn | exact Hk].
  intros c Hin. simpl in Hin. trace_mem; simplify_eq.
Defined.
